(** * The dual-mode authentication gate of the AI-governance backend

    A shallow embedding of [backend/app/core/security.py] ([verify_api_key],
    [verify_jwt]) and of [backend/app/api/routes/alerts.py] ([create_alert]),
    with the properties of the gate stated and proved over it.

    Python values that cross the gate (key sets, token headers, claim sets)
    are JSON values; a Python exception is a value of [exn]; a call that may
    raise returns a [result].  The libraries the gate calls ([requests],
    [python-jose]) and the process-wide [settings] are inputs of the model. *)

From Stdlib Require Import String Ascii List Bool ZArith Lia.
Import ListNotations.
Local Open Scope string_scope.
Local Open Scope Z_scope.

(** ** JSON values, as [json.loads] and the gate build them *)

Local Set Warnings "-register-all".

Inductive json : Type :=
| JNull
| JBool (b : bool)
| JNum (n : Z)
| JStr (s : string)
| JArr (items : list json)
| JObj (fields : list (string * json)).

(** A Python [dict] with string keys, in insertion order; a key is bound at
    most once, and the lookup returns its binding. *)
Definition dict := list (string * json).

Fixpoint dict_get (k : string) (d : dict) : option json :=
  match d with
  | [] => None
  | (k', v) :: rest => if String.eqb k k' then Some v else dict_get k rest
  end.

(** Python's [==] on JSON values: [True == 1] and [False == 0], lists compare
    element by element, dicts compare as mappings (same size, same bindings),
    values of different kinds are unequal.  Numbers are the integral ones. *)
Fixpoint py_eq (a b : json) {struct a} : bool :=
  match a, b with
  | JNull, JNull => true
  | JBool x, JBool y => Bool.eqb x y
  | JBool x, JNum n => Z.eqb (if x then 1 else 0) n
  | JNum n, JBool y => Z.eqb n (if y then 1 else 0)
  | JNum n, JNum m => Z.eqb n m
  | JStr s, JStr t => String.eqb s t
  | JArr xs, JArr ys =>
      (fix all2 (xs : list json) (ys : list json) {struct xs} : bool :=
         match xs, ys with
         | [], [] => true
         | x :: xs', y :: ys' => py_eq x y && all2 xs' ys'
         | _, _ => false
         end) xs ys
  | JObj d, JObj e =>
      Nat.eqb (length d) (length e) &&
      (fix sub (d : list (string * json)) {struct d} : bool :=
         match d with
         | [] => true
         | (k, v) :: d' =>
             match dict_get k e with
             | Some w => py_eq v w && sub d'
             | None => false
             end
         end) d
  | _, _ => false
  end.

(** Truthiness, as [if x:] tests it. *)
Definition py_bool (v : json) : bool :=
  match v with
  | JNull => false
  | JBool b => b
  | JNum n => negb (Z.eqb n 0)
  | JStr s => negb (String.eqb s EmptyString)
  | JArr items => match items with [] => false | _ => true end
  | JObj fields => match fields with [] => false | _ => true end
  end.

(** ** Exceptions *)

Definition http_headers := list (string * string).

(** The exception classes the gate distinguishes.  [HTTPException] is
    FastAPI's; the [jose.exceptions] hierarchy is
    [ExpiredSignatureError <: JWTError <: JOSEError],
    [JWTClaimsError <: JWTError], [JWSError], [JWKError], [JWEError] <:
    [JOSEError]; every class here derives from [Exception].  [JOSEError msg]
    also stands for the subclasses without a constructor of their own;
    [PyError cls msg] is any other [Exception] ([KeyError], [TypeError],
    [ConnectionError], [JSONDecodeError], ...). *)
Inductive exn : Type :=
| HTTPException (status_code : Z) (detail : string) (headers : http_headers)
| ExpiredSignatureError (msg : string)
| JWTClaimsError (msg : string)
| JWTError (msg : string)
| JWSError (msg : string)
| JWKError (msg : string)
| JOSEError (msg : string)
| PyError (cls : string) (msg : string).

(** [isinstance(e, HTTPException)] *)
Definition is_HTTPException (e : exn) : bool :=
  match e with HTTPException _ _ _ => true | _ => false end.

(** [isinstance(e, jwt.ExpiredSignatureError)] *)
Definition is_ExpiredSignatureError (e : exn) : bool :=
  match e with ExpiredSignatureError _ => true | _ => false end.

(** [isinstance(e, jwt.JWTClaimsError)] *)
Definition is_JWTClaimsError (e : exn) : bool :=
  match e with JWTClaimsError _ => true | _ => false end.

(** [isinstance(e, JOSEError)] *)
Definition is_JOSEError (e : exn) : bool :=
  match e with
  | ExpiredSignatureError _ | JWTClaimsError _ | JWTError _
  | JWSError _ | JWKError _ | JOSEError _ => true
  | HTTPException _ _ _ | PyError _ _ => false
  end.

(** [str(e)] for the exceptions whose text the gate interpolates. *)
Definition exn_str (e : exn) : string :=
  match e with
  | HTTPException _ d _ => d
  | ExpiredSignatureError m | JWTClaimsError m | JWTError m
  | JWSError m | JWKError m | JOSEError m => m
  | PyError _ m => m
  end.

(** ** Computations that return or raise *)

Inductive result (A : Type) : Type :=
| Ok (a : A)
| Raise (e : exn).
Arguments Ok {A} a.
Arguments Raise {A} e.

Definition bind {A B : Type} (m : result A) (k : A -> result B) : result B :=
  match m with
  | Ok a => k a
  | Raise e => Raise e
  end.

(** [try: m  except ...: h e] where the handler list is the function [h]. *)
Definition try_except {A : Type} (m : result A) (h : exn -> result A) : result A :=
  match m with
  | Ok a => Ok a
  | Raise e => h e
  end.

Notation "x <- m ;; k" := (bind m (fun x => k))
  (at level 61, m at next level, right associativity).

(** [v[k]] for a string key [k]: a dict is looked up ([KeyError] when the key
    is missing); lists and strings want integer indices and every other JSON
    value is not subscriptable ([TypeError]). *)
Definition py_getitem (v : json) (k : string) : result json :=
  match v with
  | JObj d =>
      match dict_get k d with
      | Some x => Ok x
      | None => Raise (PyError "KeyError" k)
      end
  | JArr _ => Raise (PyError "TypeError" "list indices must be integers or slices, not str")
  | JStr _ => Raise (PyError "TypeError" "string indices must be integers")
  | JNull | JBool _ | JNum _ => Raise (PyError "TypeError" "object is not subscriptable")
  end.

Fixpoint chars (s : string) : list json :=
  match s with
  | EmptyString => []
  | String c rest => JStr (String c EmptyString) :: chars rest
  end.

(** The items [for x in v] visits: the elements of a list, the keys of a
    dict, the characters of a string; other values are not iterable. *)
Definition py_iter (v : json) : result (list json) :=
  match v with
  | JArr items => Ok items
  | JObj d => Ok (map (fun kv => JStr (fst kv)) d)
  | JStr s => Ok (chars s)
  | JNull | JBool _ | JNum _ => Raise (PyError "TypeError" "object is not iterable")
  end.

(** ** Configuration and the outside world *)

(** [settings], from [app/core/config.py]: the four values the gate reads. *)
Record Settings : Type := {
  AUTH0_DOMAIN : string;
  AUTH0_AUDIENCE : string;
  AUTH0_ALGORITHMS : list string;
  API_KEY_SECRET : string
}.

(** What [requests.get] returns: the gate only calls [.json()] on it, which
    yields the parsed body or raises. *)
Record Response : Type := { response_json : result json }.

(** The library calls of [verify_jwt]; each one returns or raises. *)
Record World : Type := {
  requests_get : string -> result Response;
  jwt_get_unverified_header : string -> result json;
  jwt_decode : string -> json -> list string -> string -> string -> result json
}.

(** [HTTPAuthorizationCredentials], what [HTTPBearer] hands over when an
    [Authorization: Bearer <token>] header is present.  The object has no
    [__bool__] or [__len__]: [if token:] holds exactly when it is not [None]. *)
Record HTTPAuthorizationCredentials : Type := {
  scheme : string;
  credentials : string
}.

Definition HTTP_401_UNAUTHORIZED : Z := 401.

Definition bearer_challenge : http_headers := [("WWW-Authenticate", "Bearer")].

(** ** [verify_jwt] *)

(** The dict display [{"kty": key["kty"], "kid": key["kid"], ...}]: the five
    subscripts are evaluated in this order. *)
Definition build_rsa_key (key : json) : result json :=
  kty <- py_getitem key "kty" ;;
  kid <- py_getitem key "kid" ;;
  use <- py_getitem key "use" ;;
  n <- py_getitem key "n" ;;
  e <- py_getitem key "e" ;;
  Ok (JObj [("kty", kty); ("kid", kid); ("use", use); ("n", n); ("e", e)]).

(** The [for key in jwks["keys"]] loop with its [break]: the dict built from
    the first key whose ["kid"] equals the header's, or [{}]. *)
Fixpoint scan_keys (keys : list json) (unverified_header : json) : result json :=
  match keys with
  | [] => Ok (JObj [])
  | key :: rest =>
      k <- py_getitem key "kid" ;;
      h <- py_getitem unverified_header "kid" ;;
      if py_eq k h then build_rsa_key key
      else scan_keys rest unverified_header
  end.

(** [f"https://{domain}/.well-known/jwks.json"] and [f"https://{domain}/"] *)
Definition jwks_url (domain : string) : string :=
  "https://" ++ domain ++ "/.well-known/jwks.json".

Definition issuer_url (domain : string) : string :=
  "https://" ++ domain ++ "/".

(** The handlers of the inner [try] around [jwt.decode], in source order. *)
Definition decode_handlers (e : exn) : result json :=
  if is_ExpiredSignatureError e then
    Raise (HTTPException HTTP_401_UNAUTHORIZED "Token is expired" bearer_challenge)
  else if is_JWTClaimsError e then
    Raise (HTTPException HTTP_401_UNAUTHORIZED
             "Incorrect claims, check audience and issuer." bearer_challenge)
  else
    Raise (HTTPException HTTP_401_UNAUTHORIZED
             "Unable to parse authentication token" bearer_challenge).

(** The handlers of the outer [try], in source order: [except JOSEError],
    then [except Exception] (whose [print] goes to stdout and is not part of
    the result). *)
Definition outer_handlers (e : exn) : result json :=
  if is_JOSEError e then
    Raise (HTTPException HTTP_401_UNAUTHORIZED
             ("Could not validate credentials: " ++ exn_str e) bearer_challenge)
  else
    Raise (HTTPException HTTP_401_UNAUTHORIZED "Authentication failed" bearer_challenge).

(** The body of the outer [try]. *)
Definition verify_jwt_body (cfg : Settings) (w : World) (token : string) : result json :=
  let domain := AUTH0_DOMAIN cfg in
  let audience := AUTH0_AUDIENCE cfg in
  let algorithms := AUTH0_ALGORITHMS cfg in
  let jwks_url := jwks_url domain in
  jwks_client <- requests_get w jwks_url ;;
  jwks <- response_json jwks_client ;;
  unverified_header <- jwt_get_unverified_header w token ;;
  keys <- py_getitem jwks "keys" ;;
  items <- py_iter keys ;;
  rsa_key <- scan_keys items unverified_header ;;
  if py_bool rsa_key then
    try_except
      (payload <- jwt_decode w token rsa_key algorithms audience
                    (issuer_url domain) ;;
       Ok payload)
      decode_handlers
  else
    Raise (HTTPException HTTP_401_UNAUTHORIZED
             "Unable to find appropriate key" bearer_challenge).

Definition verify_jwt (cfg : Settings) (w : World) (token : string) : result json :=
  try_except (verify_jwt_body cfg w token) outer_handlers.

(** ** [verify_api_key], the gate *)

(** The dict returned for a matching API key. *)
Definition internal_principal : json :=
  JObj [("sub", JStr "internal_extension"); ("scope", JStr "admin")].

Definition missing_or_invalid : exn :=
  HTTPException HTTP_401_UNAUTHORIZED
    "Missing or invalid authentication credentials" bearer_challenge.

(** Step 1 of the gate.  [Some r]: the function is left with [r] (a [return]
    or a re-raised [HTTPException]); [None]: control reaches step 2 (no token,
    or the [except Exception: pass] arm). *)
Definition try_jwt (cfg : Settings) (w : World)
    (token : option HTTPAuthorizationCredentials) : option (result json) :=
  match token with
  | Some t =>
      match verify_jwt cfg w (credentials t) with
      | Ok payload => Some (Ok payload)
      | Raise e => if is_HTTPException e then Some (Raise e) else None
      end
  | None => None
  end.

(** Steps 2 and 3: [if api_key_header:] is false for [None] and for the empty string. *)
Definition try_api_key (cfg : Settings) (api_key_header : option string) : result json :=
  match api_key_header with
  | Some k =>
      if negb (String.eqb k EmptyString) then
        if String.eqb k (API_KEY_SECRET cfg) then Ok internal_principal
        else Raise missing_or_invalid
      else Raise missing_or_invalid
  | None => Raise missing_or_invalid
  end.

Definition verify_api_key (cfg : Settings) (w : World)
    (api_key_header : option string)
    (token : option HTTPAuthorizationCredentials) : result json :=
  match try_jwt cfg w token with
  | Some r => r
  | None => try_api_key cfg api_key_header
  end.

(** ** [create_alert] *)

(** [AlertCreate], from [app/models/schemas.py]: the three fields the handler
    and the tests use; [user_email] may be [None]. *)
Record AlertCreate : Type := {
  user_email : option string;
  violation_type : string;
  details : json
}.

Definition default_email : string := "joshini.mn@gmail.com".

(** [not alert.user_email]: [None] and the empty string are falsy. *)
Definition email_missing (a : AlertCreate) : bool :=
  match user_email a with
  | None => true
  | Some s => String.eqb s EmptyString
  end.

(** What a run of the handler leaves behind: the alert object after the
    assignment, the lines printed, and the returned dict. *)
Record AlertRun : Type := {
  alert_after : AlertCreate;
  printed : list string;
  returned : json
}.

Section CreateAlert.
(** [str(alert.details)], as the second [print] formats it. *)
Variable details_str : json -> string.

Definition create_alert (alert : AlertCreate) (api_key : json) : AlertRun :=
  let alert :=
    if email_missing alert then
      {| user_email := Some default_email;
         violation_type := violation_type alert;
         details := details alert |}
    else alert in
  let email := match user_email alert with Some s => s | None => "None" end in
  {| alert_after := alert;
     printed :=
       [ "ALERTS: Received alert from " ++ email ++ ": " ++ violation_type alert;
         "DETAILS: " ++ details_str (details alert) ];
     returned := JObj [("status", JStr "success"); ("message", JStr "Alert logged")] |}.

(** [POST /alerts/]: the handler runs once the [verify_api_key] dependency
    has returned; a rejection of the gate is the response otherwise. *)
Definition post_alert (cfg : Settings) (w : World)
    (api_key_header : option string)
    (token : option HTTPAuthorizationCredentials)
    (alert : AlertCreate) : result AlertRun :=
  api_key <- verify_api_key cfg w api_key_header token ;;
  Ok (create_alert alert api_key).
End CreateAlert.

(** ** Properties the statements below refer to *)

(** The key-set entry the scan settles on, read off the key list: the first
    entry whose ["kid"] equals the token's. *)
Definition kid_matches (h : json) (key : json) : bool :=
  match py_getitem key "kid" with
  | Ok k => py_eq k h
  | Raise _ => false
  end.

Definition first_match (keys : list json) (h : json) : option json :=
  find (kid_matches h) keys.

(** A key-set entry as the provider publishes it: a JSON object with (at
    least) [kid], [kty], [use], [n] and [e]. *)
Definition jwk_fields : list string := ["kid"; "kty"; "use"; "n"; "e"].

Definition wf_key (key : json) : bool :=
  match key with
  | JObj d =>
      forallb (fun f => match dict_get f d with Some _ => true | None => false end)
              jwk_fields
  | _ => false
  end.

(** The detail text of the two catch-all handlers of [verify_jwt]. *)
Definition fallback_detail (e : exn) : string :=
  if is_JOSEError e then "Could not validate credentials: " ++ exn_str e
  else "Authentication failed".

(** Two results are rejections with different detail texts. *)
Definition distinct_details (r1 r2 : result json) : Prop :=
  exists s1 d1 h1 s2 d2 h2,
    r1 = Raise (HTTPException s1 d1 h1) /\
    r2 = Raise (HTTPException s2 d2 h2) /\
    d1 <> d2.

(** A result is a rejection other than the one a request without any
    credential gets. *)
Definition differs_from_no_credential (cfg : Settings) (w : World)
    (r : result json) : Prop :=
  exists e e0,
    r = Raise e /\ verify_api_key cfg w None None = Raise e0 /\ e <> e0.

(** [settings] with another API-key secret. *)
Definition with_secret (secret : string) (cfg : Settings) : Settings :=
  {| AUTH0_DOMAIN := AUTH0_DOMAIN cfg;
     AUTH0_AUDIENCE := AUTH0_AUDIENCE cfg;
     AUTH0_ALGORITHMS := AUTH0_ALGORITHMS cfg;
     API_KEY_SECRET := secret |}.

(** ** A concrete deployment to run the gate on

    Tenant [tenant.example], audience [my-api], one published key [abc].  The
    identity provider and python-jose are played by a small stand-in: a token
    is a name in a table of issued tokens, and decoding checks, in jose's
    order, the signing key, the expiry, the audience and the issuer. *)
Module Scenario.

Definition cfg : Settings :=
  {| AUTH0_DOMAIN := "tenant.example";
     AUTH0_AUDIENCE := "my-api";
     AUTH0_ALGORITHMS := ["RS256"];
     API_KEY_SECRET := "dev-secret-key-change-in-production" |}.

(** The same deployment with the secret left empty. *)
Definition cfg_empty_secret : Settings := with_secret EmptyString cfg.

Definition key_abc : json :=
  JObj [("kid", JStr "abc"); ("kty", JStr "RSA"); ("use", JStr "sig");
        ("n", JStr "modulus-abc"); ("e", JStr "AQAB")].

(** A second entry published under the same identifier. *)
Definition key_abc_late : json :=
  JObj [("kid", JStr "abc"); ("kty", JStr "RSA"); ("use", JStr "sig");
        ("n", JStr "modulus-late"); ("e", JStr "AQAB")].

(** An entry without the RSA components. *)
Definition key_bare : json := JObj [("kid", JStr "abc"); ("kty", JStr "EC")].

Definition jwks : json := JObj [("keys", JArr [key_abc; key_abc_late])].

Definition now : Z := 1700000000.

Record Issued : Type := {
  iss_header : json;
  iss_claims : json;
  iss_modulus : json          (* the key that verifies the signature *)
}.

Definition claims_of (exp : Z) : json :=
  JObj [("sub", JStr "auth0|user-1"); ("aud", JStr "my-api");
        ("iss", JStr "https://tenant.example/"); ("exp", JNum exp);
        ("scope", JStr "read:logs")].

Definition issued : list (string * Issued) :=
  [ ("valid.jwt",
     {| iss_header := JObj [("alg", JStr "RS256"); ("kid", JStr "abc")];
        iss_claims := claims_of (now + 3600);
        iss_modulus := JStr "modulus-abc" |});
    ("expired.jwt",
     {| iss_header := JObj [("alg", JStr "RS256"); ("kid", JStr "abc")];
        iss_claims := claims_of (now - 3600);
        iss_modulus := JStr "modulus-abc" |});
    ("zzz.jwt",
     {| iss_header := JObj [("alg", JStr "RS256"); ("kid", JStr "zzz")];
        iss_claims := claims_of (now + 3600);
        iss_modulus := JStr "modulus-zzz" |});
    ("late.jwt",
     {| iss_header := JObj [("alg", JStr "RS256"); ("kid", JStr "abc")];
        iss_claims := claims_of (now + 3600);
        iss_modulus := JStr "modulus-late" |}) ].

Fixpoint lookup_issued (tok : string) (tbl : list (string * Issued)) : option Issued :=
  match tbl with
  | [] => None
  | (name, t) :: rest => if String.eqb tok name then Some t else lookup_issued tok rest
  end.

Definition get_header (tok : string) : result json :=
  match lookup_issued tok issued with
  | Some t => Ok (iss_header t)
  | None => Raise (JWTError "Error decoding token headers.")
  end.

Definition audience_ok (aud : json) (audience : string) : bool :=
  match aud with
  | JStr s => String.eqb s audience
  | JArr l => existsb (py_eq (JStr audience)) l
  | _ => false
  end.

Definition decode (tok : string) (key : json) (algorithms : list string)
    (audience issuer : string) : result json :=
  match lookup_issued tok issued with
  | None => Raise (JWTError "Not enough segments")
  | Some t =>
      n <- py_getitem key "n" ;;
      if negb (py_eq n (iss_modulus t)) then
        Raise (JWTError "Signature verification failed.")
      else
        exp <- py_getitem (iss_claims t) "exp" ;;
        aud <- py_getitem (iss_claims t) "aud" ;;
        iss <- py_getitem (iss_claims t) "iss" ;;
        match exp with
        | JNum e =>
            if e <? now then Raise (ExpiredSignatureError "Signature has expired.")
            else if negb (audience_ok aud audience) then
              Raise (JWTClaimsError "Invalid audience")
            else if negb (py_eq iss (JStr issuer)) then
              Raise (JWTClaimsError "Invalid issuer")
            else Ok (iss_claims t)
        | _ => Raise (JWTClaimsError "Expiration Time claim (exp) must be an integer.")
        end
  end.

(** The provider answers with [body]. *)
Definition serving (body : result json) : World :=
  {| requests_get := fun _ => Ok {| response_json := body |};
     jwt_get_unverified_header := get_header;
     jwt_decode := decode |}.

Definition world : World := serving (Ok jwks).

(** The provider cannot be reached. *)
Definition offline : World :=
  {| requests_get := fun _ => Raise (PyError "ConnectionError" "Max retries exceeded");
     jwt_get_unverified_header := get_header;
     jwt_decode := decode |}.

Definition bearer (tok : string) : HTTPAuthorizationCredentials :=
  {| scheme := "Bearer"; credentials := tok |}.

End Scenario.

(** * Properties *)

(** ** General facts about [verify_jwt] *)

Section VerifyJwtFacts.
Variable cfg : Settings.
Variable w : World.

Lemma outer_handlers_spec (e : exn) :
  outer_handlers e =
  Raise (HTTPException HTTP_401_UNAUTHORIZED (fallback_detail e) bearer_challenge).
Proof.
  unfold outer_handlers, fallback_detail.
  destruct (is_JOSEError e); reflexivity.
Qed.

(** An [HTTPException] raised inside the outer [try] is not a [JOSEError]:
    it reaches [except Exception] and leaves as "Authentication failed". *)
Lemma outer_handlers_swallow (s : Z) (d : string) (h : http_headers) :
  outer_handlers (HTTPException s d h) =
  Raise (HTTPException HTTP_401_UNAUTHORIZED "Authentication failed" bearer_challenge).
Proof. reflexivity. Qed.

Lemma verify_jwt_returns (token : string) (payload : json) :
  verify_jwt_body cfg w token = Ok payload ->
  verify_jwt cfg w token = Ok payload.
Proof. unfold verify_jwt. intros ->. reflexivity. Qed.

Lemma verify_jwt_raises (token : string) (e : exn) :
  verify_jwt_body cfg w token = Raise e ->
  verify_jwt cfg w token =
  Raise (HTTPException HTTP_401_UNAUTHORIZED (fallback_detail e) bearer_challenge).
Proof. unfold verify_jwt. intros ->. apply outer_handlers_spec. Qed.

(** Whatever [verify_jwt] raises is an [HTTPException]. *)
Lemma verify_jwt_raises_http (token : string) (e : exn) :
  verify_jwt cfg w token = Raise e ->
  exists e0,
    verify_jwt_body cfg w token = Raise e0 /\
    e = HTTPException HTTP_401_UNAUTHORIZED (fallback_detail e0) bearer_challenge.
Proof.
  destruct (verify_jwt_body cfg w token) as [p | e0] eqn:Hbody.
  - rewrite (verify_jwt_returns _ _ Hbody). discriminate.
  - rewrite (verify_jwt_raises _ _ Hbody). intros [= <-]. eauto.
Qed.

(** With a token, the gate's result is [verify_jwt]'s: the
    [except Exception: pass] arm is never taken. *)
Lemma gate_with_token (api_key_header : option string)
    (t : HTTPAuthorizationCredentials) :
  verify_api_key cfg w api_key_header (Some t) = verify_jwt cfg w (credentials t).
Proof.
  unfold verify_api_key, try_jwt.
  destruct (verify_jwt cfg w (credentials t)) as [p | e] eqn:Hv; [reflexivity |].
  destruct (verify_jwt_raises_http _ _ Hv) as (e0 & _ & ->).
  reflexivity.
Qed.

Lemma gate_without_token (api_key_header : option string) :
  verify_api_key cfg w api_key_header None = try_api_key cfg api_key_header.
Proof. reflexivity. Qed.

(** [verify_jwt] does not read the API-key secret. *)
Lemma verify_jwt_ignores_secret (secret : string) (token : string) :
  verify_jwt (with_secret secret cfg) w token = verify_jwt cfg w token.
Proof. reflexivity. Qed.

End VerifyJwtFacts.

(** ** The steps of [verify_jwt] that can fail *)

Section FailingSteps.
Variable cfg : Settings.
Variable w : World.
Variable token : string.

(** The key-set endpoint cannot be reached. *)
Lemma fetch_error (e : exn) :
  requests_get w (jwks_url (AUTH0_DOMAIN cfg)) = Raise e ->
  verify_jwt_body cfg w token = Raise e.
Proof. unfold verify_jwt_body. intros ->. reflexivity. Qed.

(** The key-set endpoint answers with a body that does not parse. *)
Lemma body_parse_error (resp : Response) (e : exn) :
  requests_get w (jwks_url (AUTH0_DOMAIN cfg)) = Ok resp ->
  response_json resp = Raise e ->
  verify_jwt_body cfg w token = Raise e.
Proof. unfold verify_jwt_body. intros -> H. simpl. rewrite H. reflexivity. Qed.

(** The token's header cannot be read. *)
Lemma header_error (resp : Response) (jwks : json) (e : exn) :
  requests_get w (jwks_url (AUTH0_DOMAIN cfg)) = Ok resp ->
  response_json resp = Ok jwks ->
  jwt_get_unverified_header w token = Raise e ->
  verify_jwt_body cfg w token = Raise e.
Proof.
  unfold verify_jwt_body. intros -> H1 H2. simpl. rewrite H1. simpl.
  rewrite H2. reflexivity.
Qed.

(** The matching key lacks one of the fields the gate copies. *)
Lemma key_material_error (resp : Response) (jwks hdr h : json)
    (key : json) (rest : list json) (e : exn) :
  requests_get w (jwks_url (AUTH0_DOMAIN cfg)) = Ok resp ->
  response_json resp = Ok jwks ->
  jwt_get_unverified_header w token = Ok hdr ->
  py_getitem jwks "keys" = Ok (JArr (key :: rest)) ->
  py_getitem hdr "kid" = Ok h ->
  kid_matches h key = true ->
  build_rsa_key key = Raise e ->
  verify_jwt_body cfg w token = Raise e.
Proof.
  unfold verify_jwt_body, kid_matches. intros -> H1 H2 H3 H4 H5 H6. simpl.
  rewrite H1. simpl. rewrite H2. simpl. rewrite H3. simpl.
  destruct (py_getitem key "kid") as [k | ?]; [| discriminate].
  simpl. rewrite H4. simpl. rewrite H5, H6. reflexivity.
Qed.

End FailingSteps.

(** ** The key scan *)

Lemma wf_key_kid (key : json) :
  wf_key key = true -> exists k, py_getitem key "kid" = Ok k.
Proof.
  destruct key as [| | | | | d]; simpl; try discriminate.
  destruct (dict_get "kid" d) as [k |]; [eauto | discriminate].
Qed.

(** A well-formed entry yields the five-field dict, which is truthy. *)
Lemma wf_key_build (key : json) :
  wf_key key = true ->
  exists rsa, build_rsa_key key = Ok rsa /\ py_bool rsa = true.
Proof.
  destruct key as [| | | | | d]; simpl; try discriminate.
  unfold build_rsa_key; simpl.
  destruct (dict_get "kid" d); simpl; [| discriminate].
  destruct (dict_get "kty" d); simpl; [| discriminate].
  destruct (dict_get "use" d); simpl; [| discriminate].
  destruct (dict_get "n" d); simpl; [| discriminate].
  destruct (dict_get "e" d); simpl; [| discriminate].
  intros _. eexists. split; reflexivity.
Qed.

(** Whatever the scan builds from an entry is truthy. *)
Lemma build_rsa_key_truthy (key rsa : json) :
  build_rsa_key key = Ok rsa -> py_bool rsa = true.
Proof.
  unfold build_rsa_key.
  destruct (py_getitem key "kty"); simpl; [| discriminate].
  destruct (py_getitem key "kid"); simpl; [| discriminate].
  destruct (py_getitem key "use"); simpl; [| discriminate].
  destruct (py_getitem key "n"); simpl; [| discriminate].
  destruct (py_getitem key "e"); simpl; [| discriminate].
  intros [= <-]. reflexivity.
Qed.

(** The loop stops at the earliest entry whose ["kid"] equals the token's;
    what follows it in the set is never looked at. *)
Lemma scan_keys_earliest (pre : list json) (key : json) (post : list json)
    (hdr h : json) :
  py_getitem hdr "kid" = Ok h ->
  (forall k, In k pre ->
     exists kid, py_getitem k "kid" = Ok kid /\ py_eq kid h = false) ->
  kid_matches h key = true ->
  scan_keys (pre ++ key :: post) hdr = build_rsa_key key.
Proof.
  intros Hh Hpre Hkey. induction pre as [| k pre IH]; simpl.
  - unfold kid_matches in Hkey.
    destruct (py_getitem key "kid") as [kid |]; [| discriminate].
    simpl. rewrite Hh. simpl. rewrite Hkey. reflexivity.
  - destruct (Hpre k (or_introl eq_refl)) as (kid & -> & Hne).
    simpl. rewrite Hh. simpl. rewrite Hne.
    apply IH. intros k' Hin. apply Hpre. right. exact Hin.
Qed.

(** On a well-formed key set the scan is [first_match]. *)
Lemma scan_keys_first_match (keys : list json) (hdr h : json) :
  py_getitem hdr "kid" = Ok h ->
  forallb wf_key keys = true ->
  scan_keys keys hdr =
  match first_match keys h with
  | Some key => build_rsa_key key
  | None => Ok (JObj [])
  end.
Proof.
  intros Hh. induction keys as [| key keys IH]; simpl; [reflexivity |].
  intros Hwf. apply andb_prop in Hwf. destruct Hwf as [Hk Hrest].
  destruct (wf_key_kid key Hk) as [k Hkid].
  unfold kid_matches at 1. rewrite Hkid. simpl. rewrite Hh. simpl.
  destruct (py_eq k h); [reflexivity | apply IH; exact Hrest].
Qed.

Lemma first_match_wf (keys : list json) (h key : json) :
  forallb wf_key keys = true ->
  first_match keys h = Some key ->
  wf_key key = true.
Proof.
  intros Hwf Hfind. apply find_some in Hfind. destruct Hfind as [Hin _].
  rewrite forallb_forall in Hwf. apply Hwf. exact Hin.
Qed.

(** ** What [verify_jwt] does once the key set and the header are in hand *)

Section TokenPath.
Variable cfg : Settings.
Variable w : World.
Variable token : string.
Variables (resp : Response) (jwks hdr h : json) (keys : list json).

Hypothesis fetched : requests_get w (jwks_url (AUTH0_DOMAIN cfg)) = Ok resp.
Hypothesis parsed : response_json resp = Ok jwks.
Hypothesis header_read : jwt_get_unverified_header w token = Ok hdr.
Hypothesis key_list : py_getitem jwks "keys" = Ok (JArr keys).
Hypothesis keys_wf : forallb wf_key keys = true.
Hypothesis token_kid : py_getitem hdr "kid" = Ok h.

Lemma body_after_scan :
  verify_jwt_body cfg w token =
  match first_match keys h with
  | Some key =>
      rsa_key <- build_rsa_key key ;;
      try_except
        (jwt_decode w token rsa_key (AUTH0_ALGORITHMS cfg) (AUTH0_AUDIENCE cfg)
           (issuer_url (AUTH0_DOMAIN cfg)))
        decode_handlers
  | None =>
      Raise (HTTPException HTTP_401_UNAUTHORIZED
               "Unable to find appropriate key" bearer_challenge)
  end.
Proof.
  unfold verify_jwt_body. rewrite fetched. simpl. rewrite parsed. simpl.
  rewrite header_read. simpl. rewrite key_list. simpl.
  rewrite (scan_keys_first_match keys hdr h token_kid keys_wf).
  destruct (first_match keys h) as [key |] eqn:Hfm; [| reflexivity].
  destruct (wf_key_build key (first_match_wf _ _ _ keys_wf Hfm)) as (rsa & Hb & Ht).
  rewrite Hb. simpl. rewrite Ht.
  destruct (jwt_decode w token rsa _ _ _); reflexivity.
Qed.

(** The matching key verifies the token: the claim set is returned. *)
Lemma verify_jwt_valid (key rsa claims : json) :
  first_match keys h = Some key ->
  build_rsa_key key = Ok rsa ->
  jwt_decode w token rsa (AUTH0_ALGORITHMS cfg) (AUTH0_AUDIENCE cfg)
    (issuer_url (AUTH0_DOMAIN cfg)) = Ok claims ->
  verify_jwt cfg w token = Ok claims.
Proof.
  intros Hfm Hb Hd. apply verify_jwt_returns.
  rewrite body_after_scan, Hfm, Hb. simpl. rewrite Hd. reflexivity.
Qed.

(** jose reports an expired token: the inner handler raises "Token is
    expired" inside the outer [try], whose [except Exception] replaces it. *)
Lemma verify_jwt_expired (key rsa : json) (msg : string) :
  first_match keys h = Some key ->
  build_rsa_key key = Ok rsa ->
  jwt_decode w token rsa (AUTH0_ALGORITHMS cfg) (AUTH0_AUDIENCE cfg)
    (issuer_url (AUTH0_DOMAIN cfg)) = Raise (ExpiredSignatureError msg) ->
  verify_jwt_body cfg w token =
    Raise (HTTPException HTTP_401_UNAUTHORIZED "Token is expired" bearer_challenge) /\
  verify_jwt cfg w token =
    Raise (HTTPException HTTP_401_UNAUTHORIZED "Authentication failed" bearer_challenge).
Proof.
  intros Hfm Hb Hd.
  assert (Hbody : verify_jwt_body cfg w token =
            Raise (HTTPException HTTP_401_UNAUTHORIZED "Token is expired"
                     bearer_challenge)).
  { rewrite body_after_scan, Hfm, Hb. simpl. rewrite Hd. reflexivity. }
  split; [exact Hbody |].
  rewrite (verify_jwt_raises _ _ _ _ Hbody). reflexivity.
Qed.

(** No entry carries the token's key id: "Unable to find appropriate key"
    is raised inside the outer [try] and replaced in the same way. *)
Lemma verify_jwt_key_not_found :
  first_match keys h = None ->
  verify_jwt_body cfg w token =
    Raise (HTTPException HTTP_401_UNAUTHORIZED
             "Unable to find appropriate key" bearer_challenge) /\
  verify_jwt cfg w token =
    Raise (HTTPException HTTP_401_UNAUTHORIZED "Authentication failed" bearer_challenge).
Proof.
  intros Hfm.
  assert (Hbody : verify_jwt_body cfg w token =
            Raise (HTTPException HTTP_401_UNAUTHORIZED
                     "Unable to find appropriate key" bearer_challenge)).
  { rewrite body_after_scan, Hfm. reflexivity. }
  split; [exact Hbody |].
  rewrite (verify_jwt_raises _ _ _ _ Hbody). reflexivity.
Qed.

End TokenPath.

(** ** The gate: credential selection *)

(** C1.  A request that carries a bearer token is decided by token
    verification alone: the gate's result is [verify_jwt]'s result, it is the
    same whatever the [X-API-Key] header and whatever the configured secret
    are, and when verification fails it is a 401 rejection. *)
Theorem bearer_token_commits_to_token_path
    (cfg : Settings) (w : World) (api_key_header : option string)
    (t : HTTPAuthorizationCredentials) :
  verify_api_key cfg w api_key_header (Some t) = verify_jwt cfg w (credentials t) /\
  (forall (other_header : option string) (other_secret : string),
     verify_api_key (with_secret other_secret cfg) w other_header (Some t) =
     verify_api_key cfg w api_key_header (Some t)) /\
  match verify_jwt cfg w (credentials t) with
  | Ok payload => verify_api_key cfg w api_key_header (Some t) = Ok payload
  | Raise _ =>
      exists d,
        verify_api_key cfg w api_key_header (Some t) =
        Raise (HTTPException HTTP_401_UNAUTHORIZED d bearer_challenge)
  end.
Proof.
  split; [apply gate_with_token |]. split.
  - intros other_header other_secret.
    rewrite !gate_with_token. apply verify_jwt_ignores_secret.
  - rewrite gate_with_token.
    destruct (verify_jwt cfg w (credentials t)) as [p | e] eqn:Hv; [reflexivity |].
    destruct (verify_jwt_raises_http _ _ _ _ Hv) as (e0 & _ & ->). eauto.
Qed.

(** The configured key next to an expired token: still a rejection. *)
Example valid_key_does_not_rescue_bad_token :
  verify_api_key Scenario.cfg Scenario.world
    (Some "dev-secret-key-change-in-production")
    (Some (Scenario.bearer "expired.jwt")) =
  Raise (HTTPException 401 "Authentication failed" bearer_challenge).
Proof. reflexivity. Qed.

(** C2.  A token whose header names a key of the (well-formed) fetched key
    set and that jose verifies under that key, the configured algorithms,
    the configured audience and the issuer [https://{domain}/] is accepted:
    the gate returns the token's claim set. *)
Theorem valid_token_authenticates
    (cfg : Settings) (w : World) (api_key_header : option string)
    (t : HTTPAuthorizationCredentials)
    (resp : Response) (jwks hdr h : json) (keys : list json)
    (key rsa claims : json) :
  requests_get w (jwks_url (AUTH0_DOMAIN cfg)) = Ok resp ->
  response_json resp = Ok jwks ->
  jwt_get_unverified_header w (credentials t) = Ok hdr ->
  py_getitem jwks "keys" = Ok (JArr keys) ->
  forallb wf_key keys = true ->
  py_getitem hdr "kid" = Ok h ->
  first_match keys h = Some key ->
  build_rsa_key key = Ok rsa ->
  jwt_decode w (credentials t) rsa (AUTH0_ALGORITHMS cfg) (AUTH0_AUDIENCE cfg)
    (issuer_url (AUTH0_DOMAIN cfg)) = Ok claims ->
  verify_api_key cfg w api_key_header (Some t) = Ok claims.
Proof.
  intros Hf Hp Hh Hk Hwf Hkid Hfm Hb Hd.
  rewrite gate_with_token.
  exact (verify_jwt_valid cfg w (credentials t) resp jwks hdr h keys
           Hf Hp Hh Hk Hwf Hkid key rsa claims Hfm Hb Hd).
Qed.

Lemma valid_token_authenticates_witness :
  verify_api_key Scenario.cfg Scenario.world None
    (Some (Scenario.bearer "valid.jwt")) =
  Ok (Scenario.claims_of (Scenario.now + 3600)).
Proof.
  apply (valid_token_authenticates Scenario.cfg Scenario.world None
           (Scenario.bearer "valid.jwt")
           {| response_json := Ok Scenario.jwks |} Scenario.jwks
           (JObj [("alg", JStr "RS256"); ("kid", JStr "abc")]) (JStr "abc")
           [Scenario.key_abc; Scenario.key_abc_late] Scenario.key_abc
           (JObj [("kty", JStr "RSA"); ("kid", JStr "abc"); ("use", JStr "sig");
                  ("n", JStr "modulus-abc"); ("e", JStr "AQAB")]));
    reflexivity.
Defined.

(** C3.  An expired but otherwise valid token: the inner handler raises
    "Token is expired", yet what leaves the gate is the catch-all
    "Authentication failed", the very rejection an unreachable key-set
    endpoint produces. *)
Theorem expired_token_surfaces_generic_failure :
  verify_jwt_body Scenario.cfg Scenario.world "expired.jwt" =
    Raise (HTTPException 401 "Token is expired" bearer_challenge) /\
  verify_api_key Scenario.cfg Scenario.world None
    (Some (Scenario.bearer "expired.jwt")) =
    Raise (HTTPException 401 "Authentication failed" bearer_challenge) /\
  verify_api_key Scenario.cfg Scenario.world None
    (Some (Scenario.bearer "expired.jwt")) =
  verify_api_key Scenario.cfg Scenario.offline None
    (Some (Scenario.bearer "valid.jwt")).
Proof.
  destruct (verify_jwt_expired Scenario.cfg Scenario.world "expired.jwt"
              {| response_json := Ok Scenario.jwks |} Scenario.jwks
              (JObj [("alg", JStr "RS256"); ("kid", JStr "abc")]) (JStr "abc")
              [Scenario.key_abc; Scenario.key_abc_late]
              eq_refl eq_refl eq_refl eq_refl eq_refl eq_refl
              Scenario.key_abc
              (JObj [("kty", JStr "RSA"); ("kid", JStr "abc"); ("use", JStr "sig");
                     ("n", JStr "modulus-abc"); ("e", JStr "AQAB")])
              "Signature has expired." eq_refl eq_refl eq_refl)
    as [Hbody Hjwt].
  split; [exact Hbody |].
  rewrite gate_with_token. simpl credentials. rewrite Hjwt.
  split; reflexivity.
Qed.

(** ** The gate: rejections *)

Lemma fallback_detail_not_missing (e : exn) :
  fallback_detail e <> "Missing or invalid authentication credentials".
Proof.
  unfold fallback_detail. destruct (is_JOSEError e); simpl; discriminate.
Qed.

Lemma try_api_key_rejection (cfg : Settings) (api_key_header : option string) (e : exn) :
  try_api_key cfg api_key_header = Raise e -> e = missing_or_invalid.
Proof.
  unfold try_api_key. destruct api_key_header as [k |].
  - destruct (String.eqb k EmptyString); simpl.
    + intros [= <-]. reflexivity.
    + destruct (String.eqb k (API_KEY_SECRET cfg)); [discriminate |].
      intros [= <-]. reflexivity.
  - intros [= <-]. reflexivity.
Qed.

(** C4, as the code has it.  Every rejection of the gate is a 401 carrying
    [WWW-Authenticate: Bearer].  Without a bearer token the detail text is
    always "Missing or invalid authentication credentials", for a missing
    credential and for a wrong API key alike; with a bearer token the detail
    text is never that one. *)
Theorem rejections_are_401_bearer
    (cfg : Settings) (w : World) (api_key_header : option string)
    (token : option HTTPAuthorizationCredentials) (e : exn) :
  verify_api_key cfg w api_key_header token = Raise e ->
  exists d,
    e = HTTPException HTTP_401_UNAUTHORIZED d bearer_challenge /\
    match token with
    | None => d = "Missing or invalid authentication credentials"
    | Some _ => d <> "Missing or invalid authentication credentials"
    end.
Proof.
  destruct token as [t |].
  - rewrite gate_with_token. intros Hv.
    destruct (verify_jwt_raises_http _ _ _ _ Hv) as (e0 & _ & ->).
    eexists. split; [reflexivity | apply fallback_detail_not_missing].
  - rewrite gate_without_token. intros Hk.
    rewrite (try_api_key_rejection _ _ _ Hk).
    eexists. split; reflexivity.
Qed.

Lemma rejections_are_401_bearer_witness :
  exists d,
    HTTPException 401 "Authentication failed" bearer_challenge =
    HTTPException HTTP_401_UNAUTHORIZED d bearer_challenge /\
    d <> "Missing or invalid authentication credentials".
Proof.
  apply (rejections_are_401_bearer Scenario.cfg Scenario.world
           (Some "dev-secret-key-change-in-production")
           (Some (Scenario.bearer "zzz.jwt"))).
  reflexivity.
Defined.

(** C4, as stated, fails: a request without any credential and a request
    with a wrong API key are two failure kinds with one detail text. *)
Lemma no_credential_and_wrong_key_share_detail :
  ~ distinct_details
      (verify_api_key Scenario.cfg Scenario.world None None)
      (verify_api_key Scenario.cfg Scenario.world (Some "not-the-secret") None).
Proof.
  intros (s1 & d1 & h1 & s2 & d2 & h2 & H1 & H2 & Hne).
  vm_compute in H1, H2.
  injection H1 as _ E1 _. injection H2 as _ E2 _.
  apply Hne. rewrite <- E1, <- E2. reflexivity.
Qed.

(** C5, as the code has it.  An [X-API-Key] value other than the configured
    secret, without a bearer token, is rejected with the 401 "Missing or
    invalid authentication credentials", which is also the rejection of a
    request without any credential. *)
Theorem wrong_api_key_rejected
    (cfg : Settings) (w : World) (k : string) :
  k <> API_KEY_SECRET cfg ->
  verify_api_key cfg w (Some k) None = Raise missing_or_invalid /\
  verify_api_key cfg w (Some k) None = verify_api_key cfg w None None.
Proof.
  intros Hne. rewrite !gate_without_token. unfold try_api_key.
  destruct (String.eqb k EmptyString); simpl; [split; reflexivity |].
  destruct (String.eqb_spec k (API_KEY_SECRET cfg)) as [Heq | _];
    [contradiction | split; reflexivity].
Qed.

Lemma wrong_api_key_rejected_witness :
  verify_api_key Scenario.cfg Scenario.world (Some "wrong-key") None =
    Raise missing_or_invalid /\
  verify_api_key Scenario.cfg Scenario.world (Some "wrong-key") None =
    verify_api_key Scenario.cfg Scenario.world None None.
Proof.
  apply (wrong_api_key_rejected Scenario.cfg Scenario.world "wrong-key").
  discriminate.
Defined.

(** C5, as stated, fails: the rejection of a wrong API key is not distinct
    from the rejection of a request without credentials. *)
Lemma wrong_key_rejection_is_the_no_credential_one :
  ~ differs_from_no_credential Scenario.cfg Scenario.world
      (verify_api_key Scenario.cfg Scenario.world (Some "wrong-key") None).
Proof.
  intros (e & e0 & H1 & H2 & Hne).
  vm_compute in H1, H2.
  apply Hne. congruence.
Qed.

(** C6, as the code has it.  A non-empty [X-API-Key] value equal to the
    configured secret, without a bearer token, authenticates as
    [{"sub": "internal_extension", "scope": "admin"}]. *)
Theorem correct_api_key_authenticates
    (cfg : Settings) (w : World) (k : string) :
  k = API_KEY_SECRET cfg ->
  k <> EmptyString ->
  verify_api_key cfg w (Some k) None =
  Ok (JObj [("sub", JStr "internal_extension"); ("scope", JStr "admin")]).
Proof.
  intros Heq Hne. rewrite gate_without_token. unfold try_api_key.
  destruct (String.eqb_spec k EmptyString) as [E | _]; [contradiction |]. simpl.
  destruct (String.eqb_spec k (API_KEY_SECRET cfg)) as [_ | N];
    [reflexivity | contradiction].
Qed.

Lemma correct_api_key_authenticates_witness :
  verify_api_key Scenario.cfg Scenario.world
    (Some "dev-secret-key-change-in-production") None =
  Ok (JObj [("sub", JStr "internal_extension"); ("scope", JStr "admin")]).
Proof.
  apply (correct_api_key_authenticates Scenario.cfg Scenario.world
           "dev-secret-key-change-in-production").
  - reflexivity.
  - discriminate.
Defined.

(** C6, as stated, fails when the configured secret is the empty string: the
    header value equal to it is not accepted. *)
Lemma empty_secret_never_authenticates :
  verify_api_key Scenario.cfg_empty_secret Scenario.world
    (Some (API_KEY_SECRET Scenario.cfg_empty_secret)) None
  <> Ok internal_principal.
Proof. vm_compute. discriminate. Qed.

(** C9.  An empty [X-API-Key] value without a bearer token gets the rejection
    of a request without credentials, under every configuration, the one
    with an empty secret included. *)
Theorem empty_api_key_is_no_credential (cfg : Settings) (w : World) :
  verify_api_key cfg w (Some EmptyString) None = Raise missing_or_invalid /\
  verify_api_key cfg w (Some EmptyString) None = verify_api_key cfg w None None /\
  verify_api_key (with_secret EmptyString cfg) w (Some EmptyString) None = Raise missing_or_invalid.
Proof. repeat split; reflexivity. Qed.

(** ** The gate: key lookup and internal errors *)

(** C7.  A token whose key id is in nobody's key set: "Unable to find
    appropriate key" is raised inside the outer [try], and what leaves the
    gate is the catch-all "Authentication failed", the very rejection an
    unreachable key-set endpoint produces. *)
Theorem unknown_kid_surfaces_generic_failure :
  first_match [Scenario.key_abc; Scenario.key_abc_late] (JStr "zzz") = None /\
  verify_jwt_body Scenario.cfg Scenario.world "zzz.jwt" =
    Raise (HTTPException 401 "Unable to find appropriate key" bearer_challenge) /\
  verify_api_key Scenario.cfg Scenario.world None
    (Some (Scenario.bearer "zzz.jwt")) =
    Raise (HTTPException 401 "Authentication failed" bearer_challenge) /\
  verify_api_key Scenario.cfg Scenario.world None
    (Some (Scenario.bearer "zzz.jwt")) =
  verify_api_key Scenario.cfg Scenario.offline None
    (Some (Scenario.bearer "valid.jwt")).
Proof.
  assert (Hfm : first_match [Scenario.key_abc; Scenario.key_abc_late] (JStr "zzz") = None)
    by reflexivity.
  destruct (verify_jwt_key_not_found Scenario.cfg Scenario.world "zzz.jwt"
              {| response_json := Ok Scenario.jwks |} Scenario.jwks
              (JObj [("alg", JStr "RS256"); ("kid", JStr "zzz")]) (JStr "zzz")
              [Scenario.key_abc; Scenario.key_abc_late]
              eq_refl eq_refl eq_refl eq_refl eq_refl eq_refl Hfm)
    as [Hbody Hjwt].
  split; [exact Hfm |]. split; [exact Hbody |].
  rewrite gate_with_token. simpl credentials. rewrite Hjwt.
  split; reflexivity.
Qed.

(** Two entries under one key id: the earlier one is the key handed to jose,
    so a token signed with the later one is not accepted. *)
Example duplicate_kid_uses_earliest :
  scan_keys [Scenario.key_abc; Scenario.key_abc_late]
    (JObj [("alg", JStr "RS256"); ("kid", JStr "abc")]) =
  build_rsa_key Scenario.key_abc /\
  verify_jwt_body Scenario.cfg Scenario.world "late.jwt" =
    Raise (HTTPException 401 "Unable to parse authentication token" bearer_challenge).
Proof. split; reflexivity. Qed.

(** C8.  Whatever exception token verification runs into (an unreachable or
    unparsable key-set endpoint, key material without the expected fields,
    anything else), the gate answers with a 401 rejection carrying the
    Bearer challenge, whose detail is "Could not validate credentials: ..."
    for a jose error and "Authentication failed" otherwise; the exception
    itself never reaches the caller. *)
Theorem internal_errors_become_rejections
    (cfg : Settings) (w : World) (api_key_header : option string)
    (t : HTTPAuthorizationCredentials) (e : exn) :
  verify_jwt_body cfg w (credentials t) = Raise e ->
  verify_api_key cfg w api_key_header (Some t) =
    Raise (HTTPException HTTP_401_UNAUTHORIZED (fallback_detail e) bearer_challenge) /\
  (fallback_detail e = "Authentication failed" \/
   fallback_detail e = "Could not validate credentials: " ++ exn_str e).
Proof.
  intros Hbody. rewrite gate_with_token. split.
  - apply verify_jwt_raises. exact Hbody.
  - unfold fallback_detail. destruct (is_JOSEError e); [right | left]; reflexivity.
Qed.

Lemma internal_errors_become_rejections_witness :
  verify_api_key Scenario.cfg Scenario.offline None
    (Some (Scenario.bearer "valid.jwt")) =
    Raise (HTTPException 401 "Authentication failed" bearer_challenge) /\
  ("Authentication failed" = "Authentication failed" \/
   "Authentication failed" = "Could not validate credentials: " ++ "Max retries exceeded").
Proof.
  apply (internal_errors_become_rejections Scenario.cfg Scenario.offline None
           (Scenario.bearer "valid.jwt")
           (PyError "ConnectionError" "Max retries exceeded")).
  reflexivity.
Defined.

(** The situations the claim names, on the concrete deployment. *)
Example unparsable_key_set :
  verify_api_key Scenario.cfg
    (Scenario.serving (Raise (PyError "JSONDecodeError" "Expecting value")))
    None (Some (Scenario.bearer "valid.jwt")) =
  Raise (HTTPException 401 "Authentication failed" bearer_challenge).
Proof. reflexivity. Qed.

Example key_without_rsa_components :
  verify_api_key Scenario.cfg
    (Scenario.serving (Ok (JObj [("keys", JArr [Scenario.key_bare])])))
    None (Some (Scenario.bearer "valid.jwt")) =
  Raise (HTTPException 401 "Authentication failed" bearer_challenge).
Proof. reflexivity. Qed.

Example key_set_without_keys :
  verify_api_key Scenario.cfg
    (Scenario.serving (Ok (JObj [("error", JStr "not found")])))
    None (Some (Scenario.bearer "valid.jwt")) =
  Raise (HTTPException 401 "Authentication failed" bearer_challenge).
Proof. reflexivity. Qed.

Example unreadable_token :
  verify_api_key Scenario.cfg Scenario.world None
    (Some (Scenario.bearer "not-a-token")) =
  Raise (HTTPException 401
           "Could not validate credentials: Error decoding token headers."
           bearer_challenge).
Proof. reflexivity. Qed.

(** ** The alert endpoint *)

(** C10.  For an authenticated request, [create_alert] runs; the alert's
    [user_email] is "joshini.mn@gmail.com" afterwards when it was absent or
    empty and unchanged otherwise, the line printed names that address, and
    the handler returns [{"status": "success", "message": "Alert logged"}]. *)
Theorem create_alert_defaults_email
    (details_str : json -> string)
    (cfg : Settings) (w : World) (api_key_header : option string)
    (token : option HTTPAuthorizationCredentials)
    (alert : AlertCreate) (principal : json) :
  verify_api_key cfg w api_key_header token = Ok principal ->
  exists run email,
    post_alert details_str cfg w api_key_header token alert = Ok run /\
    email = match user_email alert with
            | None => "joshini.mn@gmail.com"
            | Some s => if String.eqb s EmptyString then "joshini.mn@gmail.com" else s
            end /\
    user_email (alert_after run) = Some email /\
    violation_type (alert_after run) = violation_type alert /\
    details (alert_after run) = details alert /\
    hd_error (printed run) =
      Some ("ALERTS: Received alert from " ++ email ++ ": " ++ violation_type alert) /\
    returned run = JObj [("status", JStr "success"); ("message", JStr "Alert logged")].
Proof.
  intros Hauth. unfold post_alert. rewrite Hauth. simpl.
  eexists. eexists. split; [reflexivity |]. split; [reflexivity |].
  unfold create_alert, email_missing.
  destruct alert as [[s |] vt ds]; simpl.
  - destruct (String.eqb s EmptyString); simpl; repeat split; reflexivity.
  - repeat split; reflexivity.
Qed.

Lemma create_alert_defaults_email_witness :
  exists run email,
    post_alert (fun _ => "{}") Scenario.cfg Scenario.world
      (Some "dev-secret-key-change-in-production") None
      {| user_email := None; violation_type := "pii_detected";
         details := JObj [] |} = Ok run /\
    email = "joshini.mn@gmail.com" /\
    user_email (alert_after run) = Some email /\
    violation_type (alert_after run) = "pii_detected" /\
    details (alert_after run) = JObj [] /\
    hd_error (printed run) =
      Some ("ALERTS: Received alert from " ++ email ++ ": " ++ "pii_detected") /\
    returned run = JObj [("status", JStr "success"); ("message", JStr "Alert logged")].
Proof.
  apply (create_alert_defaults_email (fun _ => "{}") Scenario.cfg Scenario.world
           (Some "dev-secret-key-change-in-production") None
           {| user_email := None; violation_type := "pii_detected";
              details := JObj [] |}
           internal_principal).
  reflexivity.
Defined.

(** A rejected request never reaches the handler. *)
Lemma post_alert_rejected
    (details_str : json -> string)
    (cfg : Settings) (w : World) (api_key_header : option string)
    (token : option HTTPAuthorizationCredentials)
    (alert : AlertCreate) (e : exn) :
  verify_api_key cfg w api_key_header token = Raise e ->
  post_alert details_str cfg w api_key_header token alert = Raise e.
Proof. intros H. unfold post_alert. rewrite H. reflexivity. Qed.

(** * Further properties of the gate *)

(** ** Which exceptions the steps of [verify_jwt] can raise *)

Lemma py_getitem_raises (v : json) (k : string) (e : exn) :
  py_getitem v k = Raise e -> exists cls msg, e = PyError cls msg.
Proof.
  destruct v as [| b | n | s | items | d]; simpl; try (intros [= <-]; eauto).
  destruct (dict_get k d); [discriminate | intros [= <-]; eauto].
Qed.

Lemma py_iter_raises (v : json) (e : exn) :
  py_iter v = Raise e -> exists cls msg, e = PyError cls msg.
Proof.
  destruct v; simpl; try discriminate; intros [= <-]; eauto.
Qed.

Lemma build_rsa_key_raises (key : json) (e : exn) :
  build_rsa_key key = Raise e -> exists cls msg, e = PyError cls msg.
Proof.
  unfold build_rsa_key.
  destruct (py_getitem key "kty") eqn:H1; simpl;
    [| intros [= <-]; eapply py_getitem_raises; eassumption].
  destruct (py_getitem key "kid") eqn:H2; simpl;
    [| intros [= <-]; eapply py_getitem_raises; eassumption].
  destruct (py_getitem key "use") eqn:H3; simpl;
    [| intros [= <-]; eapply py_getitem_raises; eassumption].
  destruct (py_getitem key "n") eqn:H4; simpl;
    [| intros [= <-]; eapply py_getitem_raises; eassumption].
  destruct (py_getitem key "e") eqn:H5; simpl;
    [| intros [= <-]; eapply py_getitem_raises; eassumption].
  discriminate.
Qed.

Lemma scan_keys_raises (keys : list json) (hdr : json) (e : exn) :
  scan_keys keys hdr = Raise e -> exists cls msg, e = PyError cls msg.
Proof.
  induction keys as [| key keys IH]; simpl; [discriminate |].
  destruct (py_getitem key "kid") as [k |] eqn:Hk; simpl;
    [| intros [= <-]; eapply py_getitem_raises; eassumption].
  destruct (py_getitem hdr "kid") as [h |] eqn:Hh; simpl;
    [| intros [= <-]; eapply py_getitem_raises; eassumption].
  destruct (py_eq k h); [apply build_rsa_key_raises | exact IH].
Qed.

(** What the scan returns: [{}], or the dict built from an entry of the list
    whose ["kid"] equals the header's. *)
Lemma scan_keys_returns (keys : list json) (hdr rsa : json) :
  scan_keys keys hdr = Ok rsa ->
  rsa = JObj [] \/
  exists key h,
    In key keys /\ py_getitem hdr "kid" = Ok h /\
    kid_matches h key = true /\ build_rsa_key key = Ok rsa.
Proof.
  induction keys as [| key keys IH]; simpl.
  - intros [= <-]. left. reflexivity.
  - destruct (py_getitem key "kid") as [k |] eqn:Hk; simpl; [| discriminate].
    destruct (py_getitem hdr "kid") as [h |] eqn:Hh; simpl; [| discriminate].
    destruct (py_eq k h) eqn:Heq.
    + intros Hb. right. exists key, h. repeat split; auto.
      unfold kid_matches. rewrite Hk. exact Heq.
    + intros Hs. destruct (IH Hs) as [-> | (key' & h' & Hin & Hh' & Hm & Hb)].
      * left. reflexivity.
      * right. exists key', h'. repeat split; auto.
Qed.

(** The inner handlers always raise an [HTTPException]. *)
Lemma decode_handlers_raise (e : exn) :
  exists d, decode_handlers e =
            Raise (HTTPException HTTP_401_UNAUTHORIZED d bearer_challenge).
Proof.
  unfold decode_handlers.
  destruct (is_ExpiredSignatureError e); [eauto |].
  destruct (is_JWTClaimsError e); eauto.
Qed.

Lemma PyError_not_jose (e : exn) :
  (exists cls msg, e = PyError cls msg) -> fallback_detail e = "Authentication failed".
Proof. intros (cls & msg & ->). reflexivity. Qed.

(** ** Reading a run of [verify_jwt] backwards *)

(** A return of the [try] body: every step before it returned. *)
Lemma verify_jwt_body_returns_inv (cfg : Settings) (w : World) (token : string)
    (payload : json) :
  verify_jwt_body cfg w token = Ok payload ->
  exists resp jwks hdr keys items key h rsa,
    requests_get w (jwks_url (AUTH0_DOMAIN cfg)) = Ok resp /\
    response_json resp = Ok jwks /\
    jwt_get_unverified_header w token = Ok hdr /\
    py_getitem jwks "keys" = Ok keys /\
    py_iter keys = Ok items /\
    In key items /\
    py_getitem hdr "kid" = Ok h /\
    kid_matches h key = true /\
    build_rsa_key key = Ok rsa /\
    jwt_decode w token rsa (AUTH0_ALGORITHMS cfg) (AUTH0_AUDIENCE cfg)
      (issuer_url (AUTH0_DOMAIN cfg)) = Ok payload.
Proof.
  unfold verify_jwt_body.
  destruct (requests_get w (jwks_url (AUTH0_DOMAIN cfg))) as [resp |] eqn:Hget;
    simpl; [| discriminate].
  destruct (response_json resp) as [jwks |] eqn:Hjson; simpl; [| discriminate].
  destruct (jwt_get_unverified_header w token) as [hdr |] eqn:Hhdr;
    simpl; [| discriminate].
  destruct (py_getitem jwks "keys") as [keys |] eqn:Hkeys; simpl; [| discriminate].
  destruct (py_iter keys) as [items |] eqn:Hiter; simpl; [| discriminate].
  destruct (scan_keys items hdr) as [rsa |] eqn:Hscan; simpl; [| discriminate].
  destruct (py_bool rsa) eqn:Htruthy; [| discriminate].
  destruct (jwt_decode w token rsa (AUTH0_ALGORITHMS cfg) (AUTH0_AUDIENCE cfg)
              (issuer_url (AUTH0_DOMAIN cfg))) as [claims | e] eqn:Hdec; simpl.
  - intros [= <-].
    destruct (scan_keys_returns _ _ _ Hscan) as [-> | (key & h & Hin & Hh & Hm & Hb)];
      [discriminate |].
    exists resp, jwks, hdr, keys, items, key, h, rsa. repeat split; assumption.
  - destruct (decode_handlers_raise e) as [d ->]. discriminate.
Qed.

(** A raise of the [try] body: one of the three library calls before the scan
    raised it, or it is not a jose error. *)
Lemma verify_jwt_body_raises_inv (cfg : Settings) (w : World) (token : string)
    (e : exn) :
  verify_jwt_body cfg w token = Raise e ->
  requests_get w (jwks_url (AUTH0_DOMAIN cfg)) = Raise e \/
  (exists resp,
     requests_get w (jwks_url (AUTH0_DOMAIN cfg)) = Ok resp /\
     response_json resp = Raise e) \/
  (exists resp jwks,
     requests_get w (jwks_url (AUTH0_DOMAIN cfg)) = Ok resp /\
     response_json resp = Ok jwks /\
     jwt_get_unverified_header w token = Raise e) \/
  is_JOSEError e = false.
Proof.
  unfold verify_jwt_body.
  destruct (requests_get w (jwks_url (AUTH0_DOMAIN cfg))) as [resp |] eqn:Hget;
    simpl; [| intros [= <-]; left; reflexivity].
  destruct (response_json resp) as [jwks |] eqn:Hjson; simpl;
    [| intros [= <-]; right; left; eauto].
  destruct (jwt_get_unverified_header w token) as [hdr |] eqn:Hhdr; simpl;
    [| intros [= <-]; right; right; left; eauto].
  intros Hrest. right. right. right. revert Hrest.
  assert (Hpy : forall e0, (exists cls msg, e0 = PyError cls msg) ->
                           is_JOSEError e0 = false)
    by (intros e0 (cls & msg & ->); reflexivity).
  destruct (py_getitem jwks "keys") as [keys |] eqn:Hkeys; simpl;
    [| intros [= <-]; eapply Hpy, py_getitem_raises; eassumption].
  destruct (py_iter keys) as [items |] eqn:Hiter; simpl;
    [| intros [= <-]; eapply Hpy, py_iter_raises; eassumption].
  destruct (scan_keys items hdr) as [rsa |] eqn:Hscan; simpl;
    [| intros [= <-]; eapply Hpy, scan_keys_raises; eassumption].
  destruct (py_bool rsa); [| intros [= <-]; reflexivity].
  destruct (jwt_decode w token rsa (AUTH0_ALGORITHMS cfg) (AUTH0_AUDIENCE cfg)
              (issuer_url (AUTH0_DOMAIN cfg))) as [claims | e1]; simpl;
    [discriminate |].
  destruct (decode_handlers_raise e1) as [d ->]. intros [= <-]. reflexivity.
Qed.

(** X1.  Acceptance is sound: when the gate accepts a request with a bearer
    token, the key set was fetched and parsed, the token's header was read,
    and the returned claims are what [jwt.decode] returned for this token
    under the configured algorithms, audience and issuer and under the
    five-field key built from an entry of the fetched set whose [kid] equals
    the header's. *)
Theorem accepted_token_was_decoded
    (cfg : Settings) (w : World) (api_key_header : option string)
    (t : HTTPAuthorizationCredentials) (claims : json) :
  verify_api_key cfg w api_key_header (Some t) = Ok claims ->
  exists resp jwks hdr keys items key h rsa,
    requests_get w (jwks_url (AUTH0_DOMAIN cfg)) = Ok resp /\
    response_json resp = Ok jwks /\
    jwt_get_unverified_header w (credentials t) = Ok hdr /\
    py_getitem jwks "keys" = Ok keys /\
    py_iter keys = Ok items /\
    In key items /\
    py_getitem hdr "kid" = Ok h /\
    kid_matches h key = true /\
    build_rsa_key key = Ok rsa /\
    jwt_decode w (credentials t) rsa (AUTH0_ALGORITHMS cfg) (AUTH0_AUDIENCE cfg)
      (issuer_url (AUTH0_DOMAIN cfg)) = Ok claims.
Proof.
  rewrite gate_with_token. intros Hv.
  apply verify_jwt_body_returns_inv.
  destruct (verify_jwt_body cfg w (credentials t)) as [p | e] eqn:Hbody.
  - rewrite (verify_jwt_returns _ _ _ _ Hbody) in Hv. exact Hv.
  - rewrite (verify_jwt_raises _ _ _ _ Hbody) in Hv. discriminate.
Qed.

Lemma accepted_token_was_decoded_witness :
  exists resp jwks hdr keys items key h rsa,
    requests_get Scenario.world (jwks_url "tenant.example") = Ok resp /\
    response_json resp = Ok jwks /\
    jwt_get_unverified_header Scenario.world "valid.jwt" = Ok hdr /\
    py_getitem jwks "keys" = Ok keys /\
    py_iter keys = Ok items /\
    In key items /\
    py_getitem hdr "kid" = Ok h /\
    kid_matches h key = true /\
    build_rsa_key key = Ok rsa /\
    jwt_decode Scenario.world "valid.jwt" rsa ["RS256"] "my-api"
      (issuer_url "tenant.example") = Ok (Scenario.claims_of (Scenario.now + 3600)).
Proof.
  apply (accepted_token_was_decoded Scenario.cfg Scenario.world None
           (Scenario.bearer "valid.jwt")).
  reflexivity.
Defined.

(** X2.  Without a bearer token the gate never looks at the outside world,
    and it accepts exactly when the [X-API-Key] value is the configured
    secret and is not empty; what it returns then is the internal principal. *)
Theorem api_key_path_characterised
    (cfg : Settings) (w w' : World) (api_key_header : option string)
    (principal : json) :
  verify_api_key cfg w api_key_header None =
  verify_api_key cfg w' api_key_header None /\
  (verify_api_key cfg w api_key_header None = Ok principal <->
   api_key_header = Some (API_KEY_SECRET cfg) /\
   API_KEY_SECRET cfg <> EmptyString /\
   principal = internal_principal).
Proof.
  split; [reflexivity |].
  rewrite gate_without_token. unfold try_api_key.
  destruct api_key_header as [k |].
  - destruct (String.eqb_spec k EmptyString) as [-> | Hne]; simpl.
    + split; [discriminate |]. intros ([= <-] & Hs & _). contradiction.
    + destruct (String.eqb_spec k (API_KEY_SECRET cfg)) as [-> | Hk].
      * split.
        -- intros [= <-]. auto.
        -- intros (_ & _ & ->). reflexivity.
      * split; [discriminate |]. intros ([= ->] & _). contradiction.
  - split; [discriminate |]. intros ([=] & _).
Qed.

(** ** Rejections of the token path *)

(** X3.  The four detail texts that [verify_jwt] builds inside its [try]
    block ("Token is expired", "Incorrect claims, check audience and
    issuer.", "Unable to parse authentication token", "Unable to find
    appropriate key") are never the detail of a rejection of the gate. *)
Theorem inner_details_never_surface
    (cfg : Settings) (w : World) (api_key_header : option string)
    (token : option HTTPAuthorizationCredentials)
    (s : Z) (d : string) (h : http_headers) :
  verify_api_key cfg w api_key_header token = Raise (HTTPException s d h) ->
  d <> "Token is expired" /\
  d <> "Incorrect claims, check audience and issuer." /\
  d <> "Unable to parse authentication token" /\
  d <> "Unable to find appropriate key".
Proof.
  destruct token as [t |].
  - rewrite gate_with_token. intros Hv.
    destruct (verify_jwt_raises_http _ _ _ _ Hv) as (e0 & _ & [= -> -> ->]).
    unfold fallback_detail.
    destruct (is_JOSEError e0); simpl; repeat split; discriminate.
  - rewrite gate_without_token. intros Hk.
    pose proof (try_api_key_rejection _ _ _ Hk) as [= -> -> ->].
    repeat split; discriminate.
Qed.

Lemma inner_details_never_surface_witness :
  "Authentication failed" <> "Token is expired" /\
  "Authentication failed" <> "Incorrect claims, check audience and issuer." /\
  "Authentication failed" <> "Unable to parse authentication token" /\
  "Authentication failed" <> "Unable to find appropriate key".
Proof.
  apply (inner_details_never_surface Scenario.cfg Scenario.world None
           (Some (Scenario.bearer "expired.jwt")) 401 "Authentication failed"
           bearer_challenge).
  reflexivity.
Defined.

(** X4.  Once the key is found, every failure of [jwt.decode], of whatever
    exception class (bad signature, expiry, wrong audience or issuer,
    unusable key material), leaves the gate as the same rejection, 401
    "Authentication failed". *)
Theorem decode_failure_is_generic
    (cfg : Settings) (w : World) (api_key_header : option string)
    (t : HTTPAuthorizationCredentials)
    (resp : Response) (jwks hdr h : json) (keys : list json)
    (key rsa : json) (e : exn) :
  requests_get w (jwks_url (AUTH0_DOMAIN cfg)) = Ok resp ->
  response_json resp = Ok jwks ->
  jwt_get_unverified_header w (credentials t) = Ok hdr ->
  py_getitem jwks "keys" = Ok (JArr keys) ->
  forallb wf_key keys = true ->
  py_getitem hdr "kid" = Ok h ->
  first_match keys h = Some key ->
  build_rsa_key key = Ok rsa ->
  jwt_decode w (credentials t) rsa (AUTH0_ALGORITHMS cfg) (AUTH0_AUDIENCE cfg)
    (issuer_url (AUTH0_DOMAIN cfg)) = Raise e ->
  verify_api_key cfg w api_key_header (Some t) =
  Raise (HTTPException HTTP_401_UNAUTHORIZED "Authentication failed" bearer_challenge).
Proof.
  intros Hf Hp Hh Hk Hwf Hkid Hfm Hb Hd.
  rewrite gate_with_token.
  pose proof (body_after_scan cfg w (credentials t) resp jwks hdr h keys
                Hf Hp Hh Hk Hwf Hkid) as Hbody.
  rewrite Hfm, Hb in Hbody. simpl in Hbody. rewrite Hd in Hbody. simpl in Hbody.
  destruct (decode_handlers_raise e) as [d Hd'].
  rewrite Hd' in Hbody.
  rewrite (verify_jwt_raises _ _ _ _ Hbody). reflexivity.
Qed.

Lemma decode_failure_is_generic_witness :
  verify_api_key Scenario.cfg Scenario.world None
    (Some (Scenario.bearer "late.jwt")) =
  Raise (HTTPException HTTP_401_UNAUTHORIZED "Authentication failed" bearer_challenge).
Proof.
  apply (decode_failure_is_generic Scenario.cfg Scenario.world None
           (Scenario.bearer "late.jwt")
           {| response_json := Ok Scenario.jwks |} Scenario.jwks
           (JObj [("alg", JStr "RS256"); ("kid", JStr "abc")]) (JStr "abc")
           [Scenario.key_abc; Scenario.key_abc_late] Scenario.key_abc
           (JObj [("kty", JStr "RSA"); ("kid", JStr "abc"); ("use", JStr "sig");
                  ("n", JStr "modulus-abc"); ("e", JStr "AQAB")])
           (JWTError "Signature verification failed."));
    reflexivity.
Defined.

(** X5.  A rejection of a request with a bearer token whose detail is not
    "Authentication failed" reads "Could not validate credentials: <text>",
    and then <text> is the message of a jose error raised by one of the
    three library calls made before the key scan: the fetch, the parsing of
    its body, or the reading of the token's header. *)
Theorem could_not_validate_origin
    (cfg : Settings) (w : World) (api_key_header : option string)
    (t : HTTPAuthorizationCredentials)
    (s : Z) (d : string) (h : http_headers) :
  verify_api_key cfg w api_key_header (Some t) = Raise (HTTPException s d h) ->
  d <> "Authentication failed" ->
  exists e,
    is_JOSEError e = true /\
    d = "Could not validate credentials: " ++ exn_str e /\
    (requests_get w (jwks_url (AUTH0_DOMAIN cfg)) = Raise e \/
     (exists resp,
        requests_get w (jwks_url (AUTH0_DOMAIN cfg)) = Ok resp /\
        response_json resp = Raise e) \/
     (exists resp jwks,
        requests_get w (jwks_url (AUTH0_DOMAIN cfg)) = Ok resp /\
        response_json resp = Ok jwks /\
        jwt_get_unverified_header w (credentials t) = Raise e)).
Proof.
  rewrite gate_with_token. intros Hv Hd.
  destruct (verify_jwt_raises_http _ _ _ _ Hv) as (e & Hbody & [= -> -> ->]).
  exists e. unfold fallback_detail in *.
  destruct (is_JOSEError e) eqn:Hj; [| contradiction].
  split; [reflexivity |]. split; [reflexivity |].
  destruct (verify_jwt_body_raises_inv _ _ _ _ Hbody) as [H | [H | [H | H]]];
    [auto | auto | auto | congruence].
Qed.

Lemma could_not_validate_origin_witness :
  exists e,
    is_JOSEError e = true /\
    "Could not validate credentials: Error decoding token headers." =
      "Could not validate credentials: " ++ exn_str e /\
    (requests_get Scenario.world (jwks_url "tenant.example") = Raise e \/
     (exists resp,
        requests_get Scenario.world (jwks_url "tenant.example") = Ok resp /\
        response_json resp = Raise e) \/
     (exists resp jwks,
        requests_get Scenario.world (jwks_url "tenant.example") = Ok resp /\
        response_json resp = Ok jwks /\
        jwt_get_unverified_header Scenario.world "not-a-token" = Raise e)).
Proof.
  apply (could_not_validate_origin Scenario.cfg Scenario.world None
           (Scenario.bearer "not-a-token") 401
           "Could not validate credentials: Error decoding token headers."
           bearer_challenge).
  - reflexivity.
  - discriminate.
Defined.

(** ** The key scan, seen from the gate *)

Lemma verify_jwt_returns_inv (cfg : Settings) (w : World) (token : string)
    (payload : json) :
  verify_jwt cfg w token = Ok payload ->
  verify_jwt_body cfg w token = Ok payload.
Proof.
  intros Hv. destruct (verify_jwt_body cfg w token) as [p | e] eqn:Hbody.
  - rewrite (verify_jwt_returns _ _ _ _ Hbody) in Hv. exact Hv.
  - rewrite (verify_jwt_raises _ _ _ _ Hbody) in Hv. discriminate.
Qed.

(** An entry without a readable ["kid"] stops the scan with its exception
    when no earlier entry matched. *)
Lemma scan_keys_blocked (pre : list json) (bad : json) (post : list json)
    (hdr h : json) (e : exn) :
  py_getitem hdr "kid" = Ok h ->
  (forall k, In k pre ->
     exists kid, py_getitem k "kid" = Ok kid /\ py_eq kid h = false) ->
  py_getitem bad "kid" = Raise e ->
  scan_keys (pre ++ bad :: post) hdr = Raise e.
Proof.
  intros Hh Hpre Hbad. induction pre as [| k pre IH]; simpl.
  - rewrite Hbad. reflexivity.
  - destruct (Hpre k (or_introl eq_refl)) as (kid & -> & Hne).
    simpl. rewrite Hh. simpl. rewrite Hne.
    apply IH. intros k' Hin. apply Hpre. right. exact Hin.
Qed.

(** X6.  The earliest entry of the key set whose [kid] equals the token's
    decides alone: the gate accepts exactly when [jwt.decode] accepts the
    token under the key built from that entry, whatever follows it in the
    set (further entries with the same [kid], malformed entries). *)
Theorem earliest_matching_key_decides
    (cfg : Settings) (w : World) (api_key_header : option string)
    (t : HTTPAuthorizationCredentials)
    (resp : Response) (jwks hdr h : json)
    (pre : list json) (key : json) (post : list json) (claims : json) :
  requests_get w (jwks_url (AUTH0_DOMAIN cfg)) = Ok resp ->
  response_json resp = Ok jwks ->
  jwt_get_unverified_header w (credentials t) = Ok hdr ->
  py_getitem jwks "keys" = Ok (JArr (pre ++ key :: post)) ->
  py_getitem hdr "kid" = Ok h ->
  (forall k, In k pre ->
     exists kid, py_getitem k "kid" = Ok kid /\ py_eq kid h = false) ->
  kid_matches h key = true ->
  (verify_api_key cfg w api_key_header (Some t) = Ok claims <->
   exists rsa,
     build_rsa_key key = Ok rsa /\
     jwt_decode w (credentials t) rsa (AUTH0_ALGORITHMS cfg) (AUTH0_AUDIENCE cfg)
       (issuer_url (AUTH0_DOMAIN cfg)) = Ok claims).
Proof.
  intros Hf Hp Hh Hk Hkid Hpre Hkey.
  rewrite gate_with_token.
  assert (Hbody : verify_jwt_body cfg w (credentials t) =
            (rsa_key <- build_rsa_key key ;;
             try_except
               (jwt_decode w (credentials t) rsa_key (AUTH0_ALGORITHMS cfg)
                  (AUTH0_AUDIENCE cfg) (issuer_url (AUTH0_DOMAIN cfg)))
               decode_handlers)).
  { unfold verify_jwt_body. rewrite Hf. simpl. rewrite Hp. simpl.
    rewrite Hh. simpl. rewrite Hk. simpl.
    rewrite (scan_keys_earliest pre key post hdr h Hkid Hpre Hkey).
    destruct (build_rsa_key key) as [rsa |] eqn:Hb; simpl; [| reflexivity].
    rewrite (build_rsa_key_truthy _ _ Hb).
    destruct (jwt_decode w (credentials t) rsa _ _ _); reflexivity. }
  split.
  - intros Hv. apply verify_jwt_returns_inv in Hv. rewrite Hbody in Hv.
    destruct (build_rsa_key key) as [rsa |]; simpl in Hv; [| discriminate].
    exists rsa. split; [reflexivity |].
    destruct (jwt_decode w (credentials t) rsa _ _ _) as [c | e]; simpl in Hv.
    + exact Hv.
    + destruct (decode_handlers_raise e) as [d Hd]. rewrite Hd in Hv. discriminate.
  - intros (rsa & Hb & Hd). apply verify_jwt_returns.
    rewrite Hbody, Hb. simpl. rewrite Hd. reflexivity.
Qed.

Lemma earliest_matching_key_decides_witness :
  verify_api_key Scenario.cfg Scenario.world None
    (Some (Scenario.bearer "valid.jwt")) =
    Ok (Scenario.claims_of (Scenario.now + 3600)) <->
  exists rsa,
    build_rsa_key Scenario.key_abc = Ok rsa /\
    jwt_decode Scenario.world "valid.jwt" rsa ["RS256"] "my-api"
      (issuer_url "tenant.example") = Ok (Scenario.claims_of (Scenario.now + 3600)).
Proof.
  apply (earliest_matching_key_decides Scenario.cfg Scenario.world None
           (Scenario.bearer "valid.jwt")
           {| response_json := Ok Scenario.jwks |} Scenario.jwks
           (JObj [("alg", JStr "RS256"); ("kid", JStr "abc")]) (JStr "abc")
           [] Scenario.key_abc [Scenario.key_abc_late]);
    try reflexivity.
  intros k [].
Defined.

(** X7.  A key-set entry without a readable [kid] that comes before any
    matching entry makes the gate reject the token with 401 "Authentication
    failed", even when the right key follows it in the set. *)
Theorem kidless_entry_blocks_later_keys
    (cfg : Settings) (w : World) (api_key_header : option string)
    (t : HTTPAuthorizationCredentials)
    (resp : Response) (jwks hdr h : json)
    (pre : list json) (bad : json) (post : list json) (e : exn) :
  requests_get w (jwks_url (AUTH0_DOMAIN cfg)) = Ok resp ->
  response_json resp = Ok jwks ->
  jwt_get_unverified_header w (credentials t) = Ok hdr ->
  py_getitem jwks "keys" = Ok (JArr (pre ++ bad :: post)) ->
  py_getitem hdr "kid" = Ok h ->
  (forall k, In k pre ->
     exists kid, py_getitem k "kid" = Ok kid /\ py_eq kid h = false) ->
  py_getitem bad "kid" = Raise e ->
  verify_api_key cfg w api_key_header (Some t) =
  Raise (HTTPException HTTP_401_UNAUTHORIZED "Authentication failed" bearer_challenge).
Proof.
  intros Hf Hp Hh Hk Hkid Hpre Hbad.
  rewrite gate_with_token.
  assert (Hbody : verify_jwt_body cfg w (credentials t) = Raise e).
  { unfold verify_jwt_body. rewrite Hf. simpl. rewrite Hp. simpl.
    rewrite Hh. simpl. rewrite Hk. simpl.
    rewrite (scan_keys_blocked pre bad post hdr h e Hkid Hpre Hbad). reflexivity. }
  rewrite (verify_jwt_raises _ _ _ _ Hbody).
  rewrite (PyError_not_jose e (py_getitem_raises _ _ _ Hbad)). reflexivity.
Qed.

Lemma kidless_entry_blocks_later_keys_witness :
  verify_api_key Scenario.cfg
    (Scenario.serving
       (Ok (JObj [("keys", JArr [JObj [("kty", JStr "EC")]; Scenario.key_abc])])))
    None (Some (Scenario.bearer "valid.jwt")) =
  Raise (HTTPException HTTP_401_UNAUTHORIZED "Authentication failed" bearer_challenge).
Proof.
  apply (kidless_entry_blocks_later_keys Scenario.cfg
           (Scenario.serving
              (Ok (JObj [("keys", JArr [JObj [("kty", JStr "EC")]; Scenario.key_abc])])))
           None (Scenario.bearer "valid.jwt")
           {| response_json :=
                Ok (JObj [("keys", JArr [JObj [("kty", JStr "EC")]; Scenario.key_abc])]) |}
           (JObj [("keys", JArr [JObj [("kty", JStr "EC")]; Scenario.key_abc])])
           (JObj [("alg", JStr "RS256"); ("kid", JStr "abc")]) (JStr "abc")
           [] (JObj [("kty", JStr "EC")]) [Scenario.key_abc]
           (PyError "KeyError" "kid"));
    try reflexivity.
  intros k [].
Defined.

(** X8.  A token whose header carries no [kid] is never accepted, whatever
    the key set holds: the gate answers with a 401 rejection. *)
Theorem token_without_kid_never_accepted
    (cfg : Settings) (w : World) (api_key_header : option string)
    (t : HTTPAuthorizationCredentials) (hdr : json) (e : exn) :
  jwt_get_unverified_header w (credentials t) = Ok hdr ->
  py_getitem hdr "kid" = Raise e ->
  exists d,
    verify_api_key cfg w api_key_header (Some t) =
    Raise (HTTPException HTTP_401_UNAUTHORIZED d bearer_challenge).
Proof.
  intros Hh Hkid. rewrite gate_with_token.
  destruct (verify_jwt cfg w (credentials t)) as [p | e0] eqn:Hv.
  - apply verify_jwt_returns_inv in Hv.
    destruct (verify_jwt_body_returns_inv _ _ _ _ Hv)
      as (resp & jwks & hdr' & keys & items & key & h & rsa &
          _ & _ & Hh' & _ & _ & _ & Hkid' & _).
    rewrite Hh in Hh'. injection Hh' as <-. rewrite Hkid in Hkid'. discriminate.
  - destruct (verify_jwt_raises_http _ _ _ _ Hv) as (e1 & _ & ->). eauto.
Qed.

Lemma token_without_kid_never_accepted_witness :
  exists d,
    verify_api_key Scenario.cfg
      {| requests_get := requests_get Scenario.world;
         jwt_get_unverified_header := fun _ => Ok (JObj [("alg", JStr "RS256")]);
         jwt_decode := Scenario.decode |}
      (Some "dev-secret-key-change-in-production")
      (Some (Scenario.bearer "valid.jwt")) =
    Raise (HTTPException HTTP_401_UNAUTHORIZED d bearer_challenge).
Proof.
  apply (token_without_kid_never_accepted Scenario.cfg
           {| requests_get := requests_get Scenario.world;
              jwt_get_unverified_header := fun _ => Ok (JObj [("alg", JStr "RS256")]);
              jwt_decode := Scenario.decode |}
           (Some "dev-secret-key-change-in-production")
           (Scenario.bearer "valid.jwt")
           (JObj [("alg", JStr "RS256")]) (PyError "KeyError" "kid"));
    reflexivity.
Defined.

(** ** The alert endpoint, further *)

(** X9.  After [create_alert] the alert's [user_email] is a non-empty string,
    and running the handler again on the alert it left behind changes
    nothing: same alert, same printed lines, same response. *)
Theorem create_alert_settles_email
    (details_str : json -> string) (alert : AlertCreate) (api_key api_key' : json) :
  (exists s,
     user_email (alert_after (create_alert details_str alert api_key)) = Some s /\
     s <> EmptyString) /\
  create_alert details_str
    (alert_after (create_alert details_str alert api_key)) api_key' =
  create_alert details_str alert api_key.
Proof.
  destruct alert as [[s |] vt ds]; unfold create_alert, email_missing; simpl.
  - destruct (String.eqb_spec s EmptyString) as [-> | Hne]; simpl.
    + split; [| reflexivity]. eexists. split; [reflexivity | discriminate].
    + split.
      * exists s. split; [reflexivity | exact Hne].
      * apply String.eqb_neq in Hne. rewrite Hne. reflexivity.
  - split; [| reflexivity]. eexists. split; [reflexivity | discriminate].
Qed.

(** X10.  An alert posted with a bearer token that fails verification is
    answered with the token's 401 rejection and the handler does not run,
    even when the request also carries the configured API key. *)
Theorem alert_rejected_on_failed_token
    (details_str : json -> string)
    (cfg : Settings) (w : World) (t : HTTPAuthorizationCredentials)
    (alert : AlertCreate) (e : exn) :
  verify_jwt cfg w (credentials t) = Raise e ->
  post_alert details_str cfg w (Some (API_KEY_SECRET cfg)) (Some t) alert = Raise e /\
  exists d, e = HTTPException HTTP_401_UNAUTHORIZED d bearer_challenge.
Proof.
  intros Hv. split.
  - apply post_alert_rejected. rewrite gate_with_token. exact Hv.
  - destruct (verify_jwt_raises_http _ _ _ _ Hv) as (e0 & _ & ->). eauto.
Qed.

Lemma alert_rejected_on_failed_token_witness :
  post_alert (fun _ => "{}") Scenario.cfg Scenario.world
    (Some (API_KEY_SECRET Scenario.cfg)) (Some (Scenario.bearer "expired.jwt"))
    {| user_email := Some "test@example.com"; violation_type := "pii_detected";
       details := JObj [] |} =
    Raise (HTTPException 401 "Authentication failed" bearer_challenge) /\
  exists d,
    HTTPException 401 "Authentication failed" bearer_challenge =
    HTTPException HTTP_401_UNAUTHORIZED d bearer_challenge.
Proof.
  apply (alert_rejected_on_failed_token (fun _ => "{}") Scenario.cfg Scenario.world
           (Scenario.bearer "expired.jwt")).
  reflexivity.
Defined.
